(** * CopilotKit example agents: the step summarizer and the translator

    A shallow embedding of two LangGraph nodes,

      - [Extract.extract_node]
          (examples/coagents-ai-researcher/agent/ai_researcher/extract.py)
      - [Agent.get_model], [Agent.translate_node]
          (examples/coagents-shared-state/agent/my_agent/agent.py)

    Python dicts are finite maps ([gmap]), the step dicts that
    [extract_node] mutates in place live in an object store indexed by
    references, exceptions are values of [Py.exn], and the language model
    and the client constructors are oracles supplied by the caller. *)

From Stdlib Require Import Ascii.
From stdpp Require Import base strings list gmap functions.

(** ** Python prelude: exceptions, [str] methods, LangChain messages *)

Module Py.

Inductive exn :=
  | ValueError (msg : string)
  | KeyError (key : string)
  | IndexError
  | TypeError
  | AttributeError (name : string)
  | ValidationError (field : string)
  | ServiceError (reason : string).   (* anything the model client raises *)

Inductive result (A : Type) :=
  | Return (a : A)
  | Raise (e : exn).
Arguments Return {A} a.
Arguments Raise {A} e.

(** Characters that cannot be typed inside a string literal. *)
Definition nl : string := String "010"%char "".
Definition dquote : string := String "034"%char "".

(** Strings are sequences of code points below 256.  On those,
    [str.lower()] shifts A-Z and the Latin-1 capitals (all of 192..222 but
    the multiplication sign 215) by 32. *)
Definition lower_char (c : ascii) : ascii :=
  let n := nat_of_ascii c in
  if (Nat.leb 65 n && Nat.leb n 90)
     || (Nat.leb 192 n && Nat.leb n 222 && negb (Nat.eqb n 215))
  then ascii_of_nat (n + 32) else c.

Fixpoint lower (s : string) : string :=
  match s with
  | EmptyString => EmptyString
  | String c s' => String (lower_char c) (lower s')
  end.

(** [str.isspace()] on one code point below 256. *)
Definition isspace (c : ascii) : bool :=
  let n := nat_of_ascii c in
  (Nat.leb 9 n && Nat.leb n 13) || (Nat.leb 28 n && Nat.leb n 32)
  || Nat.eqb n 133 || Nat.eqb n 160.

Fixpoint lstrip (s : string) : string :=
  match s with
  | EmptyString => EmptyString
  | String c s' => if isspace c then lstrip s' else s
  end.

Definition rstrip (s : string) : string :=
  String.rev (lstrip (String.rev s)).

Definition strip (s : string) : string := rstrip (lstrip s).

(** Truth value of a [str]: non-empty. *)
Definition str_truthy (s : string) : bool :=
  match s with EmptyString => false | String _ _ => true end.

(** A tool call as LangChain delivers it: a dict with [name], [args] and
    [id], the id being a string or [None]; the translator reads [args]
    with [dict.get], allowing for its absence, and [id] by subscript. *)
Record tool_call := ToolCall {
  tc_name : string;
  tc_args : option (gmap string string);
  tc_id : option string
}.

Inductive message :=
  | HumanMessage (content : string)
  | SystemMessage (content : string)
  | AIMessage (content : string) (tool_calls : list tool_call)
  | ToolMessage (content : string) (tool_call_id : string).

Definition content (m : message) : string :=
  match m with
  | HumanMessage c | SystemMessage c | AIMessage c _ | ToolMessage c _ => c
  end.

Definition is_HumanMessage (m : message) : bool :=
  match m with HumanMessage _ => true | _ => false end.
Definition is_SystemMessage (m : message) : bool :=
  match m with SystemMessage _ => true | _ => false end.
Definition is_AIMessage (m : message) : bool :=
  match m with AIMessage _ _ => true | _ => false end.

(** A state-and-exception monad.  A raised exception keeps the state reached
    so far: what was mutated before the [raise] stays mutated. *)
Definition M (S A : Type) : Type := S -> result A * S.

Definition ret {S A} (a : A) : M S A := fun s => (Return a, s).
Definition raise {S A} (e : exn) : M S A := fun s => (Raise e, s).
Definition lift {S A} (r : result A) : M S A := fun s => (r, s).
Definition gets {S A} (f : S -> result A) : M S A := fun s => (f s, s).
Definition modify {S} (f : S -> S) : M S unit := fun s => (Return tt, f s).
Definition bind {S A B} (m : M S A) (k : A -> M S B) : M S B :=
  fun s =>
    match m s with
    | (Return a, s') => k a s'
    | (Raise e, s') => (Raise e, s')
    end.

End Py.

Declare Scope py_scope.
Delimit Scope py_scope with py.
Notation "x <- m ;; k" := (Py.bind m (fun x => k))
  (at level 100, m at next level, right associativity) : py_scope.
Notation "m ;;; k" := (Py.bind m (fun _ => k))
  (at level 100, right associativity) : py_scope.

(** ** The step summarizer (ai_researcher/extract.py) *)

Module Extract.
Import Py.
Local Open Scope py_scope.

(** The values found in a step dict: [None], a [str], a list of [str]. *)
Inductive value :=
  | VNone
  | VStr (s : string)
  | VList (l : list string).

#[global] Instance value_eq_dec : EqDecision value.
Proof. solve_decision. Defined.

(** Modelled from the spec: the [Step] and [AgentState] declarations of
    ai_researcher/state.py, a module other than the two embedded here.  A
    step is a dict with the keys [id], [type], [status], [result],
    [search_result] and [updates]; the node reads [status] by subscript and
    [type] and [updates] with [dict.get], so a step stays a dict here and a
    missing key behaves as in Python.  The state carries [messages] and
    [steps].  Steps are objects mutated in place: the state holds references
    into a store of dicts, and two entries of [steps] may be the same
    object. *)
Abbreviation step := (gmap string value).
Abbreviation loc := nat.
Abbreviation store := (loc -> step).

Record AgentState := {
  messages : list message;
  steps : list loc
}.

(** [step[k]] and [step.get(k)] / [step.get(k, default)]. *)
Definition subscript (d : step) (k : string) : result value :=
  match d !! k with
  | Some v => Return v
  | None => Raise (KeyError k)
  end.

Definition dict_get (d : step) (k : string) (dflt : value) : value :=
  default dflt (d !! k).

(** [d.update(other)]: the keys of [other] win. *)
Definition dict_update (d other : step) : step := other ∪ d.

(** [next((step for step in steps if step["status"] == "pending"), None)] *)
Fixpoint next_pending (ls : list loc) (h : store) : result (option loc) :=
  match ls with
  | [] => Return None
  | l :: ls' =>
      match subscript (h l) "status" with
      | Raise e => Raise e
      | Return v =>
          if decide (v = VStr "pending") then Return (Some l)
          else next_pending ls' h
      end
  end.

(** The first pending step of a list of references, said without the
    generator: every step before it has a status other than "pending". *)
Definition pending (h : store) (l : loc) : Prop :=
  h l !! "status" = Some (VStr "pending").

Definition settled (h : store) (l : loc) : Prop :=
  ∃ v, h l !! "status" = Some v ∧ v ≠ VStr "pending".

Definition first_pending (h : store) (ls : list loc) (l : loc) : Prop :=
  ∃ pre post, ls = pre ++ l :: post ∧ Forall (settled h) pre ∧ pending h l.

(** The next pending step once [cur] is complete: the first pending step
    among the entries that are not [cur] itself. *)
Definition further_pending (h : store) (ls : list loc) (cur nxt : loc)
  : Prop :=
  ∃ pre post, ls = pre ++ nxt :: post
    ∧ Forall (λ l, l = cur ∨ settled h l) pre ∧ nxt ≠ cur ∧ pending h nxt.

(** Reading and assigning the dict behind a reference. *)
Definition read (l : loc) : M store step := gets (fun h => Return (h l)).
Definition write (l : loc) (d : step) : M store unit :=
  modify (fun h => <[l := d]> h).

(** [xs + ["Done."]] where [xs] came out of a step: only a list can be
    concatenated with a list. *)
Definition list_add (v : value) (ys : list string) : result (list string) :=
  match v with
  | VList xs => Return (xs ++ ys)
  | _ => Raise TypeError
  end.

(** [state["messages"][0]] *)
Definition first_message (ms : list message) : result message :=
  match ms with
  | m :: _ => Return m
  | [] => Raise IndexError
  end.

Fixpoint unlines (ls : list string) : string :=
  match ls with
  | [] => ""
  | l :: ls' => l +:+ nl +:+ unlines ls'
  end.

(** The dict literal passed to [current_step.update]. *)
Definition completion (response_content : string) (updates : list string)
  : step :=
  <["result" := VStr response_content]>
    (<["search_result" := VNone]>
      (<["status" := VStr "complete"]>
        (<["updates" := VList updates]> ∅))).

Definition searching : list string := ["Searching the web..."].

(** The keys [current_step.update] writes. *)
Definition touched_keys : list string :=
  ["result"; "search_result"; "status"; "updates"].

(** The completed step's result as the spec words it: a non-empty text. *)
Definition result_nonempty (h' : store) (cur : loc) : Prop :=
  ∃ s, h' cur !! "result" = Some (VStr s) ∧ s ≠ "".

(** "Gains a starting entry in addition to its previous entries", in the
    spec's words: the old log entries are all still there, and so is the
    new one. *)
Definition log_extended (h h' : store) (nxt : loc) : Prop :=
  ∃ old new, h nxt !! "updates" = Some (VList old)
    ∧ h' nxt !! "updates" = Some (VList new)
    ∧ (∀ u, u ∈ old → u ∈ new) ∧ "Searching the web..." ∈ new.

Section node.

(** The chat model of ai_researcher/model.py and [json.dumps] are supplied
    from outside. *)
Context {chat_model RunnableConfig : Type}.
Variable get_model : result chat_model.
Variable ainvoke :
  chat_model -> list message -> RunnableConfig -> result message.
Variable json_dumps : step -> string.

Definition system_message (current_step : step) : string :=
  nl +:+ unlines [
    "This step was just executed: " +:+ json_dumps current_step;
    "";
    "This is the result of the search:";
    "";
    "Please summarize ONLY the result of the search and include all relevant information from the search and reference links.";
    "DO NOT INCLUDE ANY EXTRA INFORMATION. ALL OF THE INFORMATION YOU ARE LOOKING FOR IS IN THE SEARCH RESULTS.";
    "";
    "DO NOT answer the user's query yet. Just summarize the search results.";
    "";
    "Use markdown formatting and put the references inline and the links at the end.";
    "Like this:";
    "This is a sentence with a reference to a source [source 1][1] and another reference [source 2][2].";
    "[1]: http://example.com/source1 " +:+ dquote +:+ "Title of Source 1" +:+ dquote;
    "[2]: http://example.com/source2 " +:+ dquote +:+ "Title of Source 2" +:+ dquote
  ].

(** [if not current_step] and [if next_step] test the truth value of what
    [next(..., None)] gave: [None] and the empty dict are false. *)
Definition extract_node (state : AgentState) (config : RunnableConfig)
  : M store AgentState :=
  current_step <- gets (next_pending (steps state));;
  match current_step with
  | None => raise (ValueError "No pending search step found")
  | Some cur =>
      d <- read cur;;
      if decide (d = ∅)
      then raise (ValueError "No pending search step found")
      else if decide (dict_get d "type" VNone ≠ VStr "search")
      then raise (ValueError "The current step is not a search step")
      else
        model <- lift get_model;;
        first <- lift (first_message (messages state));;
        response <-
          lift (ainvoke model [first; HumanMessage (system_message d)] config);;
        updates <- lift (list_add (dict_get d "updates" (VList [])) ["Done."]);;
        write cur (dict_update d (completion (content response) updates));;;
        next_step <- gets (next_pending (steps state));;
        match next_step with
        | None => ret state
        | Some nxt =>
            d' <- read nxt;;
            if decide (d' = ∅) then ret state
            else write nxt (<["updates" := VList searching]> d');;; ret state
        end
  end.

End node.
End Extract.

(** ** The translator (my_agent/agent.py) *)

Module Agent.
Import Py.
Local Open Scope py_scope.

Definition DEFAULT_MODEL : string := "openai".
Definition OPENAI_MODEL : string := "gpt-4o".
Definition ANTHROPIC_MODEL : string := "claude-3-5-sonnet-20240620".

(** [os.getenv(key, default)] *)
Definition getenv (environ : gmap string string) (key dflt : string)
  : string :=
  default dflt (environ !! key).

(** [Translations] is a TypedDict: at run time a dict from field names to
    text, here whatever [args] the model put in its tool call. *)
Abbreviation Translations := (gmap string string).

(** What the state dict holds under its keys, and what an attribute of a
    dict can be: one of its methods. *)
Inductive value :=
  | VNone
  | VStr (s : string)
  | VMessages (ms : list message)
  | VTranslations (t : Translations)
  | VMethod (name : string).

(** [AgentState] extends langgraph's [MessagesState], a TypedDict: the
    state the graph hands to the node is a plain dict with the keys
    [messages], [translations] and [input]. *)
Abbreviation AgentState := (gmap string value).

(** [state.get(key)] *)
Definition dict_get (state : AgentState) (key : string) : value :=
  default VNone (state !! key).

(** The attributes of a dict object are its methods (the public ones are
    listed; the node reads no double-underscore attribute). *)
Definition dict_attributes : list string :=
  ["clear"; "copy"; "fromkeys"; "get"; "items"; "keys"; "pop"; "popitem";
   "setdefault"; "update"; "values"].

(** [state.name]: the keys of a dict are not attributes of it. *)
Definition getattr (state : AgentState) (name : string) : result value :=
  if decide (name ∈ dict_attributes) then Return (VMethod name)
  else Raise (AttributeError name).

(** [state.name = v]: a dict takes no attribute assignment, its methods
    being read-only and no other attribute being allowed. *)
Definition setattr (state : AgentState) (name : string) (v : value)
  : result AgentState :=
  Raise (AttributeError name).

(** Truth value of a Python value. *)
Definition truthy (v : value) : bool :=
  match v with
  | VNone => false
  | VStr s => str_truthy s
  | VMessages ms => bool_decide (ms ≠ [])
  | VTranslations t => bool_decide (t ≠ ∅)
  | VMethod _ => true
  end.

(** [v[-1]] and [for message in v], for [v] the list of messages the key
    [messages] is declared to hold; on a value of another type they are
    taken to raise [TypeError]. *)
Definition item_last (v : value) : result message :=
  match v with
  | VMessages ms =>
      match list.last ms with
      | Some m => Return m
      | None => Raise IndexError
      end
  | _ => Raise TypeError
  end.

Definition iterate (v : value) : result (list message) :=
  match v with
  | VMessages ms => Return ms
  | _ => Raise TypeError
  end.

(** [ToolMessage(content=..., tool_call_id=...)]: the id must be a
    string. *)
Definition new_ToolMessage (content : string) (tool_call_id : option string)
  : result message :=
  match tool_call_id with
  | Some id => Return (ToolMessage content id)
  | None => Raise (ValidationError "tool_call_id")
  end.

(** The fixed text of the prompt's f-string. *)
Definition instruction : string :=
  nl +:+
  "    You are a helpful assistant that translates text to different languages "
  +:+ nl +:+
  "    (Spanish, French, and German)." +:+ nl +:+
  "    Don't ask for confirmation before translating." +:+ nl +:+
  "    ".

(** The condition of the list comprehension that filters the history. *)
Definition kept (message : message) : bool :=
  negb (is_SystemMessage message)
  && negb (is_AIMessage message
           && negb (str_truthy (strip (content message)))).

(** [hasattr(response, "tool_calls")]: only an [AIMessage] has it. *)
Definition tool_calls_attr (response : message) : option (list tool_call) :=
  match response with
  | AIMessage _ tcs => Some tcs
  | _ => None
  end.

(** What [bind_tools] returns: the client, the tools bound to it (by
    name) and the tool choice; [None] leaves the choice to the model. *)
Record bound_model {chat_model : Type} := {
  client : chat_model;
  tools : list string;
  tool_choice : option string
}.
Arguments bound_model : clear implicits.

Definition bind_tools {chat_model : Type} (m : chat_model)
  (tools : list string) (tool_choice : option string)
  : bound_model chat_model :=
  {| client := m; tools := tools; tool_choice := tool_choice |}.

(** One call of the model service. *)
Record invocation {chat_model RunnableConfig : Type} := {
  invoked : bound_model chat_model;
  sent : list message;
  sent_config : RunnableConfig
}.
Arguments invocation : clear implicits.

Section node.

(** The two client constructors (which look for their credentials in the
    process environment and raise when they find none), the formatting of
    a value in an f-string, CopilotKit's configuration helper and the
    model service are supplied from outside. *)
Context {chat_model RunnableConfig : Type}.
Variable ChatOpenAI :
  gmap string string -> nat -> string -> result chat_model.
Variable ChatAnthropic :
  gmap string string -> nat -> string -> option nat ->
  option (list string) -> result chat_model.
Variable format : value -> string.

(** [{v}] in an f-string: a [str] is put in as it is. *)
Definition fstring (v : value) : string :=
  match v with
  | VStr s => s
  | _ => format v
  end.
Variable copilotkit_customize_config :
  RunnableConfig -> bool -> list (gmap string string) -> RunnableConfig.
Variable ainvoke : invocation chat_model RunnableConfig -> result message.

(** [get_model] with the process environment [environ]; the constructors
    are called with the keyword arguments of the source (temperature,
    model name, timeout, stop). *)
Definition get_model (environ : gmap string string) : result chat_model :=
  let model_choice := lower (getenv environ "MODEL" DEFAULT_MODEL) in
  if decide (model_choice = "openai")
  then ChatOpenAI environ 0 OPENAI_MODEL
  else if decide (model_choice = "anthropic")
  then ChatAnthropic environ 0 ANTHROPIC_MODEL None None
  else Raise (ValueError ("Invalid model specified: " +:+ model_choice)).

(** The node runs over the trace of the calls made to the model service.
    (The debugging [print]s of the source are left out.) *)
Abbreviation trace := (list (invocation chat_model RunnableConfig)).

Definition call (i : invocation chat_model RunnableConfig)
  : M trace message :=
  fun tr => (ainvoke i, tr ++ [i]).

Definition translate_node (environ : gmap string string)
  (state : AgentState) (config : RunnableConfig) : M trace AgentState :=
  let customized_config :=
    copilotkit_customize_config config true
      [ {[ "state_key" := "translations"; "tool" := "Translations" ]} ] in
  chat <- lift (get_model environ);;
  messages <- lift (getattr state "messages");;
  human_last <-
    (if truthy messages
     then messages <- lift (getattr state "messages");;
          last <- lift (item_last messages);;
          ret (is_HumanMessage last)
     else ret false);;
  let model :=
    bind_tools chat ["Translations"]
      (if human_last : bool then None else Some "Translations") in
  working_on <-
    (if truthy (dict_get state "input")
     then input <- lift (getattr state "input");;
          ret ("The user is currently working on translating this text: "
               +:+ dquote +:+ fstring input +:+ dquote)
     else ret "");;
  let translation_prompt := instruction +:+ working_on +:+ nl +:+ "    " in
  let new_message := HumanMessage translation_prompt in
  messages <- lift (getattr state "messages");;
  history <- lift (iterate messages);;
  let filtered_messages := List.filter kept history ++ [new_message] in
  response <-
    call {| invoked := model; sent := filtered_messages;
            sent_config := customized_config |};;
  match tool_calls_attr response with
  | Some (tc :: _) =>
      let translations := default ∅ (tc_args tc) in
      state <- lift (setattr state "translations"
                       (VTranslations translations));;
      state <- lift (setattr state "input" (VStr ""));;
      tool_message <- lift (new_ToolMessage "Translated!" (tc_id tc));;
      let updated_messages := [new_message; response; tool_message] in
      state <- lift (setattr state "messages" (VMessages updated_messages));;
      ret state
  | _ =>
      let updated_messages := [new_message; response] in
      state <- lift (setattr state "messages" (VMessages updated_messages));;
      ret state
  end.

End node.

End Agent.

(** ** Concrete states *)

Module Examples.
Import Py.

Module Research.
Import Extract.

Definition step_of (type status : string) : step :=
  <["type" := VStr type]> (<["status" := VStr status]> ∅).

(** A plan of three steps: one search done, an answer step pending with a
    note in its log, and a search still to come. *)
Definition answer_next : store := fun l =>
  match l with
  | 0 => step_of "search" "complete"
  | 1 => <["updates" := VList ["Queued."]]> (step_of "answer" "pending")
  | 2 => step_of "search" "pending"
  | _ => ∅
  end.

(** A pending search step, never searched (no [search_result], no
    [updates]), followed by a pending answer step with a note in its log. *)
Definition search_next : store := fun l =>
  match l with
  | 0 => step_of "search" "pending"
  | 1 => <["updates" := VList ["Queued."]]> (step_of "answer" "pending")
  | _ => ∅
  end.

Definition question : list message := [HumanMessage "What is Rocq?"].

Definition plan : AgentState :=
  {| messages := question; steps := [0; 1; 2] |}.
Definition two_steps : AgentState :=
  {| messages := question; steps := [0; 1] |}.
Definition one_step : AgentState :=
  {| messages := question; steps := [0] |}.

(** A model that answers with an empty text, and one that summarizes. *)
Definition silent (_ : unit) (_ : list message) (_ : unit) : result message :=
  Return (AIMessage "" []).
Definition summarizing (_ : unit) (_ : list message) (_ : unit)
  : result message :=
  Return (AIMessage "Rocq is a proof assistant [1]." []).

Definition no_json (_ : step) : string := "{}".

(** A store whose only step has lost its [status] key. *)
Definition no_status : store := fun _ => {[ "type" := VStr "search" ]}.

End Research.

Module Translation.
Import Agent.

(** The clients the two constructors build. *)
Inductive client :=
  | OpenAI (temperature : nat) (model : string)
  | Anthropic (temperature : nat) (model_name : string)
      (timeout : option nat) (stop : option (list string)).

(** Constructors that raise when the provider's API key is not in the
    environment. *)
Definition open_ai (environ : gmap string string) (temperature : nat)
  (model : string) : result client :=
  match environ !! "OPENAI_API_KEY" with
  | Some _ => Return (OpenAI temperature model)
  | None => Raise (ServiceError "OpenAIError: api_key must be set")
  end.

Definition anthropic_ai (environ : gmap string string) (temperature : nat)
  (model_name : string) (timeout : option nat) (stop : option (list string))
  : result client :=
  match environ !! "ANTHROPIC_API_KEY" with
  | Some _ => Return (Anthropic temperature model_name timeout stop)
  | None => Raise (ServiceError "AnthropicError: api_key must be set")
  end.

Definition repr (_ : value) : string := "<object>".

Definition same_config (c : unit) (_ : bool) (_ : list (gmap string string))
  : unit := c.

(** Environments: nothing set; the OpenAI key only; an unsupported
    provider; the other provider in mixed case. *)
Definition bare : gmap string string := ∅.
Definition with_key : gmap string string :=
  {[ "OPENAI_API_KEY" := "sk-test" ]}.
Definition gemini : gmap string string :=
  {[ "MODEL" := "Gemini"; "OPENAI_API_KEY" := "sk-test" ]}.
Definition claude : gmap string string :=
  {[ "MODEL" := "Anthropic"; "ANTHROPIC_API_KEY" := "sk-ant-test" ]}.

(** States as the graph passes them: dicts with the three keys. *)
Definition after_user : AgentState :=
  {[ "messages" := VMessages [SystemMessage "Be brief."; HumanMessage "hola"];
     "translations" := VNone;
     "input" := VStr "good morning" ]}.

Definition after_assistant : AgentState :=
  {[ "messages" := VMessages [HumanMessage "hola"; AIMessage "   " [];
                              AIMessage "Which text?" []];
     "translations" := VNone;
     "input" := VStr "" ]}.

Definition payload : Translations :=
  {[ "translation_es" := "buenos dias"; "translation_fr" := "bonjour";
     "translation_de" := "guten Morgen" ]}.

Definition tool_response : message :=
  AIMessage "" [ToolCall "Translations" (Some payload) (Some "call_1")].
Definition text_response : message := AIMessage "Which text?" [].

(** A model that calls the tool, and one that only talks. *)
Definition translating (_ : invocation client unit) : result message :=
  Return tool_response.
Definition chatty (_ : invocation client unit) : result message :=
  Return text_response.

End Translation.
End Examples.

(** ** Further states: logs, gaps and failures *)

Module Cases.
Import Py.

Module Research.
Import Extract Examples.Research.

(** A pending search step whose log already has an entry, and a second
    pending search step. *)
Definition logged : store := fun l =>
  match l with
  | 0 => <["updates" := VList ["Searching the web..."]]>
           (step_of "search" "pending")
  | 1 => step_of "search" "pending"
  | _ => ∅
  end.

(** A pending search step whose log is [None]. *)
Definition null_log : store := fun l =>
  match l with
  | 0 => <["updates" := VNone]> (step_of "search" "pending")
  | _ => ∅
  end.

(** A step without a status between a completed step and a pending one. *)
Definition gap_before : store := fun l =>
  match l with
  | 0 => step_of "search" "complete"
  | 1 => {[ "type" := VStr "search" ]}
  | 2 => step_of "search" "pending"
  | _ => ∅
  end.

(** A step without a status after the pending search step. *)
Definition gap_after : store := fun l =>
  match l with
  | 0 => step_of "search" "pending"
  | 1 => {[ "type" := VStr "answer" ]}
  | _ => ∅
  end.

Definition no_history : AgentState := {| messages := []; steps := [0] |}.

Definition long_history : AgentState :=
  {| messages := question ++ [AIMessage "Let me search." []];
     steps := [0; 1] |}.

(** A model service that is down. *)
Definition unavailable (_ : unit) (_ : list message) (_ : unit)
  : result message :=
  Raise (ServiceError "timeout").

End Research.
End Cases.

(** ** The summarizer: when it raises, what it writes *)

Module ExtractSpec.
Import Py Extract.

(** *** The generator that finds the pending step *)

Lemma next_pending_Some ls h l :
  next_pending ls h = Return (Some l) ↔ first_pending h ls l.
Proof.
  unfold first_pending. induction ls as [|a ls IH]; simpl.
  - split; [done|]. intros (pre & post & E & _). by destruct pre.
  - unfold subscript. destruct (h a !! "status") as [v|] eqn:Ha.
    + destruct (decide (v = VStr "pending")) as [->|Hv].
      * split.
        -- intros [= ->]. by exists [], ls.
        -- intros (pre & post & E & Hpre & Hl). destruct pre as [|b pre].
           ++ by injection E as -> _.
           ++ injection E as <- _. apply Forall_cons_1 in Hpre as [(w & Hw & Hne) _].
              congruence.
      * rewrite IH. split.
        -- intros (pre & post & -> & Hpre & Hl). exists (a :: pre), post.
           split_and!; [done| |done]. constructor; [by exists v|done].
        -- intros (pre & post & E & Hpre & Hl). destruct pre as [|b pre].
           ++ injection E as -> _. unfold pending in Hl. congruence.
           ++ injection E as <- ->. apply Forall_cons_1 in Hpre as [_ Hpre].
              by exists pre, post.
    + split; [done|]. intros (pre & post & E & Hpre & Hl).
      destruct pre as [|b pre].
      * injection E as -> _. unfold pending in Hl. congruence.
      * injection E as <- _. apply Forall_cons_1 in Hpre as [(w & Hw & _) _].
        congruence.
Qed.

Lemma next_pending_None ls h :
  next_pending ls h = Return None ↔ Forall (settled h) ls.
Proof.
  induction ls as [|a ls IH]; simpl.
  - split; [constructor|done].
  - unfold subscript. destruct (h a !! "status") as [v|] eqn:Ha.
    + destruct (decide (v = VStr "pending")) as [->|Hv].
      * split; [done|]. intros [(w & Hw & Hne) _]%Forall_cons_1. congruence.
      * rewrite IH. split.
        -- intros H. constructor; [by exists v|done].
        -- by intros [_ H]%Forall_cons_1.
    + split; [done|]. intros [(w & Hw & _) _]%Forall_cons_1. congruence.
Qed.

(** A step the generator stops at is not the empty dict. *)
Lemma first_pending_nonempty h ls l : first_pending h ls l → h l ≠ ∅.
Proof.
  intros (_ & _ & _ & _ & Hl) E. unfold pending in Hl.
  rewrite E in Hl. by rewrite lookup_empty in Hl.
Qed.

Section completed.
Variables (h : store) (cur : loc) (d1 : step).
Hypothesis Hd1 : d1 !! "status" = Some (VStr "complete").

Lemma settled_insert l : settled (<[cur := d1]> h) l ↔ l = cur ∨ settled h l.
Proof.
  unfold settled. destruct (decide (cur = l)) as [<-|Hne].
  - rewrite fn_lookup_insert. split; [by left|]. intros _.
    by exists (VStr "complete").
  - rewrite fn_lookup_insert_ne by done. split; [by right|].
    by intros [->|?].
Qed.

Lemma pending_insert l : pending (<[cur := d1]> h) l ↔ l ≠ cur ∧ pending h l.
Proof.
  unfold pending. destruct (decide (cur = l)) as [<-|Hne].
  - rewrite fn_lookup_insert, Hd1. split; [done|]. by intros [? _].
  - rewrite fn_lookup_insert_ne by done. split; [|by intros [_ ?]].
    intros ?. split; [congruence|done].
Qed.

Lemma next_pending_insert_Some ls nxt :
  next_pending ls (<[cur := d1]> h) = Return (Some nxt)
  ↔ further_pending h ls cur nxt.
Proof.
  rewrite next_pending_Some. unfold first_pending, further_pending.
  split; intros (pre & post & E & Hpre & Hl); exists pre, post.
  - apply pending_insert in Hl as [? ?]. split_and!; try done.
    revert Hpre. apply List.Forall_impl. intros l. apply settled_insert.
  - destruct Hl as [? ?]. split_and!; try done.
    + revert Hpre. apply List.Forall_impl. intros l. apply settled_insert.
    + by apply pending_insert.
Qed.

Lemma next_pending_insert_None ls :
  next_pending ls (<[cur := d1]> h) = Return None
  ↔ Forall (λ l, l = cur ∨ settled h l) ls.
Proof.
  rewrite next_pending_None.
  split; apply List.Forall_impl; intros l; apply settled_insert.
Qed.

End completed.

(** *** The dict after [current_step.update] *)
Lemma lookup_update_status d c u :
  dict_update d (completion c u) !! "status" = Some (VStr "complete").
Proof. unfold dict_update, completion. by simplify_map_eq. Qed.

Lemma lookup_update_result d c u :
  dict_update d (completion c u) !! "result" = Some (VStr c).
Proof. unfold dict_update, completion. by simplify_map_eq. Qed.

Lemma lookup_update_search_result d c u :
  dict_update d (completion c u) !! "search_result" = Some VNone.
Proof. unfold dict_update, completion. by simplify_map_eq. Qed.

Lemma lookup_update_updates d c u :
  dict_update d (completion c u) !! "updates" = Some (VList u).
Proof. unfold dict_update, completion. by simplify_map_eq. Qed.

Lemma lookup_update_other d c u k :
  k ∉ touched_keys → dict_update d (completion c u) !! k = d !! k.
Proof.
  unfold touched_keys. intros Hk. unfold dict_update, completion.
  apply lookup_union_r.
  rewrite !lookup_insert_ne; [apply lookup_empty|..];
    intros <-; apply Hk; set_solver.
Qed.

Lemma first_pending_inj h ls a b :
  first_pending h ls a → first_pending h ls b → a = b.
Proof. intros Ha%next_pending_Some Hb%next_pending_Some. congruence. Qed.

Lemma further_pending_inj h ls cur a b :
  further_pending h ls cur a → further_pending h ls cur b → a = b.
Proof.
  assert (({["status" := VStr "complete"]} : step) !! "status"
          = Some (VStr "complete")) as Hd by apply lookup_singleton_eq.
  intros Ha%(next_pending_insert_Some _ _ _ Hd).
  intros Hb%(next_pending_insert_Some _ _ _ Hd). congruence.
Qed.

Lemma further_pending_not_all h ls cur nxt :
  further_pending h ls cur nxt → ¬ Forall (λ l, l = cur ∨ settled h l) ls.
Proof.
  assert (({["status" := VStr "complete"]} : step) !! "status"
          = Some (VStr "complete")) as Hd by apply lookup_singleton_eq.
  intros Ha%(next_pending_insert_Some _ _ _ Hd).
  intros Hb%(next_pending_insert_None _ _ _ Hd). congruence.
Qed.

Section node.
Context {chat_model RunnableConfig : Type}.
Variable get_model : result chat_model.
Variable ainvoke :
  chat_model -> list message -> RunnableConfig -> result message.
Variable json_dumps : step -> string.

Abbreviation run := (extract_node get_model ainvoke json_dumps).

Lemma dict_get_type d :
  dict_get d "type" VNone = VStr "search" ↔ d !! "type" = Some (VStr "search").
Proof.
  unfold dict_get. destruct (d !! "type"); simpl; split; congruence.
Qed.

(** Every successful run goes through the same stations. *)
Lemma extract_node_Return state config h st' h' :
  run state config h = (Return st', h') →
  ∃ cur model first response upd,
    first_pending h (steps state) cur
    ∧ h cur !! "type" = Some (VStr "search")
    ∧ get_model = Return model
    ∧ first_message (messages state) = Return first
    ∧ ainvoke model
        [first; HumanMessage (system_message json_dumps (h cur))] config
      = Return response
    ∧ list_add (dict_get (h cur) "updates" (VList [])) ["Done."] = Return upd
    ∧ st' = state
    ∧ let h1 :=
        <[cur := dict_update (h cur) (completion (content response) upd)]> h in
      (Forall (λ l, l = cur ∨ settled h l) (steps state) ∧ h' = h1)
      ∨ (∃ nxt, further_pending h (steps state) cur nxt
           ∧ h' = <[nxt := <["updates" := VList searching]> (h nxt)]> h1).
Proof.
  unfold extract_node, read, write, bind, gets, modify, lift, raise, ret.
  destruct (next_pending (steps state) h) as [[cur|]|] eqn:Hcur; [|done..].
  apply next_pending_Some in Hcur. cbv beta iota zeta.
  destruct (decide (h cur = ∅)) as [|Hne]; [done|].
  destruct (decide (dict_get (h cur) "type" VNone ≠ VStr "search"))
    as [|Hty%dec_stable]; [done|].
  apply dict_get_type in Hty.
  destruct get_model as [model|] eqn:Hm; [|done].
  destruct (first_message (messages state)) as [first|] eqn:Hf; [|done].
  destruct (ainvoke model _ config) as [response|] eqn:Hr; [|done].
  destruct (list_add _ _) as [upd|] eqn:Hu; [|done].
  set (d1 := dict_update (h cur) (completion (content response) upd)).
  pose proof (lookup_update_status (h cur) (content response) upd) as Hd1.
  fold d1 in Hd1.
  destruct (next_pending (steps state) (<[cur:=d1]> h)) as [[nxt|]|] eqn:Hn;
    [| |done].
  - apply (next_pending_insert_Some _ _ _ Hd1) in Hn.
    assert (nxt ≠ cur) as Hnc by (by destruct Hn as (? & ? & ? & ? & ? & ?)).
    rewrite (fn_lookup_insert_ne _ cur nxt) by done.
    destruct (decide (h nxt = ∅)) as [He|_].
    + destruct Hn as (? & ? & ? & ? & ? & Hp). unfold pending in Hp.
      rewrite He in Hp. by rewrite lookup_empty in Hp.
    + intros [= <- <-]. exists cur, model, first, response, upd.
      split_and!; try done. right. by exists nxt.
  - apply (next_pending_insert_None _ _ _ Hd1) in Hn.
    intros [= <- <-]. exists cur, model, first, response, upd.
    split_and!; try done. by left.
Qed.

Lemma extract_node_no_pending state config h :
  Forall (settled h) (steps state) →
  run state config h = (Raise (ValueError "No pending search step found"), h).
Proof.
  intros Hs%next_pending_None.
  unfold extract_node, read, write, bind, gets, modify, lift, raise, ret.
  by rewrite Hs.
Qed.

Lemma extract_node_not_search state config h cur :
  first_pending h (steps state) cur →
  h cur !! "type" ≠ Some (VStr "search") →
  run state config h
  = (Raise (ValueError "The current step is not a search step"), h).
Proof.
  intros Hcur Hty. pose proof (first_pending_nonempty _ _ _ Hcur) as Hne.
  apply next_pending_Some in Hcur.
  unfold extract_node, read, write, bind, gets, modify, lift, raise, ret.
  rewrite Hcur. cbv beta iota zeta.
  destruct (decide (h cur = ∅)); [done|].
  destruct (decide (dict_get (h cur) "type" VNone ≠ VStr "search"))
    as [|Hs%dec_stable]; [done|].
  by apply dict_get_type in Hs.
Qed.

(** The node does return when the state is as it expects it: a pending
    search step whose log, if present, is a list; a first message; a model
    that answers; and a status on every step. *)
Lemma extract_node_succeeds state config h cur model first rest response :
  first_pending h (steps state) cur →
  h cur !! "type" = Some (VStr "search") →
  (h cur !! "updates" = None ∨ ∃ us, h cur !! "updates" = Some (VList us)) →
  Forall (λ l, is_Some (h l !! "status")) (steps state) →
  get_model = Return model →
  messages state = first :: rest →
  ainvoke model [first; HumanMessage (system_message json_dumps (h cur))]
    config = Return response →
  ∃ h', run state config h = (Return state, h').
Proof.
  intros Hcur Hty Hup Hst Hm Hms Hr.
  pose proof (first_pending_nonempty _ _ _ Hcur) as Hne.
  apply next_pending_Some in Hcur. apply dict_get_type in Hty.
  unfold extract_node, read, write, bind, gets, modify, lift, raise, ret.
  rewrite Hcur. cbv beta iota zeta.
  destruct (decide (h cur = ∅)); [done|].
  destruct (decide (dict_get (h cur) "type" VNone ≠ VStr "search")); [done|].
  rewrite Hm, Hms. simpl first_message. cbv beta iota zeta. rewrite Hr.
  assert (∃ upd, list_add (dict_get (h cur) "updates" (VList [])) ["Done."]
                 = Return upd) as [upd ->].
  { unfold dict_get. destruct Hup as [->|[us ->]]; simpl; eauto. }
  set (d1 := dict_update (h cur) (completion (content response) upd)).
  destruct (next_pending (steps state) (<[cur:=d1]> h)) as [[nxt|]|] eqn:Hn.
  - destruct (decide (<[cur:=d1]> h nxt = ∅)); eauto.
  - eauto.
  - exfalso. revert Hn Hst. generalize (steps state) as ls.
    induction ls as [|a ls IH]; simpl; [done|].
    intros Hn [[v Hv] Hst]%Forall_cons_1. unfold subscript in Hn.
    destruct (decide (cur = a)) as [<-|Hne'].
    + rewrite fn_lookup_insert in Hn. unfold d1 in Hn.
      rewrite lookup_update_status in Hn.
      destruct (decide (VStr "complete" = VStr "pending")); [done|]. eauto.
    + rewrite fn_lookup_insert_ne in Hn by done. rewrite Hv in Hn.
      destruct (decide (v = VStr "pending")); [done|]. eauto.
Qed.

(** C2.  When no step of the list is pending (every step has a status
    other than "pending"), or the first pending step is not of type
    "search", the summarizer raises [ValueError] and the store of step
    dicts it ends with is the one it started from: no step was mutated. *)
Theorem extract_node_invalid_state state config h :
  Forall (settled h) (steps state)
  ∨ (∃ cur, first_pending h (steps state) cur
       ∧ h cur !! "type" ≠ Some (VStr "search")) →
  ∃ msg, run state config h = (Raise (ValueError msg), h).
Proof.
  intros [Hnone|(cur & Hcur & Hty)].
  - eexists. by apply extract_node_no_pending.
  - eexists. by eapply extract_node_not_search.
Qed.

(** C9.  The first pending step alone decides: when it is not of type
    "search" the summarizer raises, whatever follows it in the list, a
    pending search step included. *)
Theorem first_pending_step_decides state config h pre cur post :
  steps state = pre ++ cur :: post →
  Forall (settled h) pre →
  pending h cur →
  h cur !! "type" ≠ Some (VStr "search") →
  run state config h
  = (Raise (ValueError "The current step is not a search step"), h).
Proof.
  intros E Hpre Hcur Hty. apply extract_node_not_search with cur; [|done].
  by exists pre, post.
Qed.

(** C7.  After a successful run the completed step's [search_result] is
    [None], whatever it was before, also when the key was never set. *)
Theorem search_result_discarded state config h st' h' cur :
  run state config h = (Return st', h') →
  first_pending h (steps state) cur →
  h' cur !! "search_result" = Some VNone.
Proof.
  intros Hrun Hcur.
  destruct (extract_node_Return _ _ _ _ _ Hrun)
    as (cur' & model & first & response & upd & Hcur' & _ & _ & _ & _ & _ & _
        & Hh').
  rewrite <- (first_pending_inj _ _ _ _ Hcur Hcur') in Hh'. simpl in Hh'.
  destruct Hh' as [[_ ->]|(nxt & (_ & _ & _ & _ & Hne & _) & ->)].
  - rewrite fn_lookup_insert. apply lookup_update_search_result.
  - rewrite fn_lookup_insert_ne by done. rewrite fn_lookup_insert.
    apply lookup_update_search_result.
Qed.

(** C10.  A successful run returns the state it was given (same messages,
    same list of steps) and touches at most two step dicts: in the first
    pending step only the keys [result], [search_result], [status] and
    [updates]; in the next pending step, when there is one, only [updates],
    which is assigned the one-entry list afresh.  Every other dict of the
    store is as before. *)
Theorem extract_node_frame state config h st' h' :
  run state config h = (Return st', h') →
  st' = state
  ∧ ∃ cur, first_pending h (steps state) cur
      ∧ (∀ k, k ∉ touched_keys → h' cur !! k = h cur !! k)
      ∧ ((Forall (λ l, l = cur ∨ settled h l) (steps state)
            ∧ ∀ l, l ≠ cur → h' l = h l)
         ∨ (∃ nxt, further_pending h (steps state) cur nxt
              ∧ h' nxt = <["updates" := VList searching]> (h nxt)
              ∧ ∀ l, l ≠ cur → l ≠ nxt → h' l = h l)).
Proof.
  intros Hrun.
  destruct (extract_node_Return _ _ _ _ _ Hrun)
    as (cur & model & first & response & upd & Hcur & _ & _ & _ & _ & _ & ->
        & Hh').
  split; [done|]. exists cur. split; [done|]. simpl in Hh'.
  destruct Hh' as [[Hall ->]|(nxt & Hnxt & ->)].
  - split.
    + intros k Hk. rewrite fn_lookup_insert. by apply lookup_update_other.
    + left. split; [done|]. intros l Hl. by rewrite fn_lookup_insert_ne.
  - assert (nxt ≠ cur) as Hne by (by destruct Hnxt as (? & ? & ? & ? & ? & ?)).
    split.
    + intros k Hk. rewrite fn_lookup_insert_ne by done.
      rewrite fn_lookup_insert. by apply lookup_update_other.
    + right. exists nxt. split; [done|]. split.
      * by rewrite fn_lookup_insert.
      * intros l Hl Hl'. by rewrite !fn_lookup_insert_ne.
Qed.

(** C3, as the code has it.  After a successful run on a state whose first
    pending step is [cur], that step is a search step, its status is
    "complete" and its result is the content of the model's response
    (empty when the model answers with an empty text); and when a further
    pending step exists, its log is exactly the one entry "Searching the
    web...". *)
Theorem extract_node_completes_step state config h st' h' cur :
  run state config h = (Return st', h') →
  first_pending h (steps state) cur →
  h cur !! "type" = Some (VStr "search")
  ∧ h' cur !! "status" = Some (VStr "complete")
  ∧ (∃ model first response,
       get_model = Return model
       ∧ first_message (messages state) = Return first
       ∧ ainvoke model
           [first; HumanMessage (system_message json_dumps (h cur))] config
         = Return response
       ∧ h' cur !! "result" = Some (VStr (content response)))
  ∧ ∀ nxt, further_pending h (steps state) cur nxt →
      h' nxt !! "updates" = Some (VList ["Searching the web..."]).
Proof.
  intros Hrun Hcur.
  destruct (extract_node_Return _ _ _ _ _ Hrun)
    as (cur' & model & first & response & upd & Hcur' & Hty & Hm & Hf & Hr
        & _ & _ & Hh').
  rewrite <- (first_pending_inj _ _ _ _ Hcur Hcur') in *. clear Hcur'.
  simpl in Hh'. split; [done|].
  destruct Hh' as [[Hall ->]|(nxt & Hnxt & ->)].
  - rewrite fn_lookup_insert. split; [apply lookup_update_status|]. split.
    + exists model, first, response. split_and!; try done.
      apply lookup_update_result.
    + intros nxt Hnxt. by destruct (further_pending_not_all _ _ _ _ Hnxt).
  - assert (nxt ≠ cur) as Hne by (by destruct Hnxt as (? & ? & ? & ? & ? & ?)).
    rewrite fn_lookup_insert_ne by done. rewrite fn_lookup_insert.
    split; [apply lookup_update_status|]. split.
    + exists model, first, response. split_and!; try done.
      apply lookup_update_result.
    + intros nxt' Hnxt'.
      rewrite <- (further_pending_inj _ _ _ _ _ Hnxt Hnxt').
      rewrite fn_lookup_insert. apply lookup_insert_eq.
Qed.

End node.

(** *** The summarizer on the example plans *)

Section examples.
Import Examples.Research.

Abbreviation summarize := (extract_node (Return tt) summarizing no_json).

Lemma extract_node_invalid_state_witness :
  ∃ msg, summarize one_step tt answer_next
         = (Raise (ValueError msg), answer_next).
Proof.
  apply extract_node_invalid_state. left.
  repeat constructor. exists (VStr "complete"). split; [reflexivity|done].
Defined.

Lemma first_pending_step_decides_witness :
  (pending answer_next 2 ∧ answer_next 2 !! "type" = Some (VStr "search"))
  ∧ summarize plan tt answer_next
    = (Raise (ValueError "The current step is not a search step"),
       answer_next).
Proof.
  split; [by split|].
  apply (first_pending_step_decides (Return tt) summarizing no_json
           plan tt answer_next [0] 1 [2]).
  - reflexivity.
  - repeat constructor. exists (VStr "complete"). split; [reflexivity|done].
  - reflexivity.
  - discriminate.
Defined.

Lemma search_next_first : first_pending search_next [0; 1] 0.
Proof. exists [], [1]. split_and!; [reflexivity|constructor|reflexivity]. Qed.

Lemma summarize_two_steps :
  summarize two_steps tt search_next
  = (Return two_steps, snd (summarize two_steps tt search_next)).
Proof. vm_compute. reflexivity. Qed.

Lemma search_result_discarded_witness :
  search_next 0 !! "search_result" = None
  ∧ snd (summarize two_steps tt search_next) 0 !! "search_result"
    = Some VNone.
Proof.
  split; [reflexivity|].
  apply (search_result_discarded (Return tt) summarizing no_json
           two_steps tt search_next two_steps).
  - exact summarize_two_steps.
  - exact search_next_first.
Defined.

(** A step dict without a [status] is not a [Step]; on it the generator
    raises [KeyError] and the node with it. *)
Example extract_node_no_status :
  summarize one_step tt no_status = (Raise (KeyError "status"), no_status).
Proof. reflexivity. Qed.

Lemma extract_node_frame_witness :
  two_steps = two_steps
  ∧ ∃ cur, first_pending search_next (steps two_steps) cur
      ∧ (∀ k, k ∉ touched_keys →
           snd (summarize two_steps tt search_next) cur !! k
           = search_next cur !! k)
      ∧ ((Forall (λ l, l = cur ∨ settled search_next l) (steps two_steps)
            ∧ ∀ l, l ≠ cur →
                snd (summarize two_steps tt search_next) l = search_next l)
         ∨ (∃ nxt, further_pending search_next (steps two_steps) cur nxt
              ∧ snd (summarize two_steps tt search_next) nxt
                = <["updates" := VList searching]> (search_next nxt)
              ∧ ∀ l, l ≠ cur → l ≠ nxt →
                  snd (summarize two_steps tt search_next) l
                  = search_next l)).
Proof.
  exact (extract_node_frame (Return tt) summarizing no_json
           two_steps tt search_next two_steps _ summarize_two_steps).
Defined.

Lemma extract_node_completes_step_witness :
  search_next 0 !! "type" = Some (VStr "search")
  ∧ snd (summarize two_steps tt search_next) 0 !! "status"
    = Some (VStr "complete")
  ∧ (∃ model first response,
       Return tt = Return model
       ∧ first_message (messages two_steps) = Return first
       ∧ summarizing model
           [first; HumanMessage (system_message no_json (search_next 0))] tt
         = Return response
       ∧ snd (summarize two_steps tt search_next) 0 !! "result"
         = Some (VStr (content response)))
  ∧ ∀ nxt, further_pending search_next (steps two_steps) 0 nxt →
      snd (summarize two_steps tt search_next) nxt !! "updates"
      = Some (VList ["Searching the web..."]).
Proof.
  exact (extract_node_completes_step (Return tt) summarizing no_json
           two_steps tt search_next two_steps _ 0
           summarize_two_steps search_next_first).
Defined.

(** C3 as the spec words it fails twice.  With a model that answers with
    an empty text, the only pending step (a search step) is completed with
    an empty result.  And the pending step that follows the completed one
    had "Queued." in its log, which is gone afterwards. *)
Lemma completes_step_counterexample :
  (∃ h', extract_node (Return tt) silent no_json one_step tt search_next
         = (Return one_step, h')
     ∧ first_pending search_next (steps one_step) 0
     ∧ ¬ result_nonempty h' 0)
  ∧ (∃ h', summarize two_steps tt search_next = (Return two_steps, h')
       ∧ further_pending search_next (steps two_steps) 0 1
       ∧ ¬ log_extended search_next h' 1).
Proof.
  split.
  - exists (snd (extract_node (Return tt) silent no_json one_step tt
                   search_next)).
    split_and!.
    + vm_compute. reflexivity.
    + exists [], []. split_and!; [reflexivity|constructor|reflexivity].
    + intros (s & Hs & Hne). vm_compute in Hs. congruence.
  - exists (snd (summarize two_steps tt search_next)). split_and!.
    + exact summarize_two_steps.
    + exists [0], []. split; [reflexivity|].
      split; [|split; [done|reflexivity]]. constructor; [by left|constructor].
    + intros (old & new & Ho & Hn & Hsub & _).
      vm_compute in Ho, Hn. injection Ho as <-. injection Hn as <-.
      pose proof (Hsub "Queued." (list_elem_of_here _ _)) as Hin.
      by apply list_elem_of_singleton in Hin.
Qed.

End examples.

End ExtractSpec.

(** ** The translator: the model it acquires, and where it stops *)

Module AgentSpec.
Import Py Agent.

(** The keys of the state are not attributes of the dict. *)
Lemma getattr_key state name :
  name ∉ dict_attributes → getattr state name = Raise (AttributeError name).
Proof. intros Hn. unfold getattr. by destruct (decide _). Qed.

Lemma messages_not_attribute : "messages" ∉ dict_attributes.
Proof.
  unfold dict_attributes. rewrite !not_elem_of_cons. split_and!; try done.
  apply not_elem_of_nil.
Qed.

Section node.
Context {chat_model RunnableConfig : Type}.
Variable ChatOpenAI :
  gmap string string -> nat -> string -> result chat_model.
Variable ChatAnthropic :
  gmap string string -> nat -> string -> option nat ->
  option (list string) -> result chat_model.
Variable format : value -> string.
Variable copilotkit_customize_config :
  RunnableConfig -> bool -> list (gmap string string) -> RunnableConfig.
Variable ainvoke : invocation chat_model RunnableConfig -> result message.
Variable environ : gmap string string.

Abbreviation acquire := (get_model ChatOpenAI ChatAnthropic).
Abbreviation run :=
  (translate_node ChatOpenAI ChatAnthropic format
     copilotkit_customize_config ainvoke).

(** Without a model the node raises what [get_model] raised, before
    calling. *)
Lemma translate_node_no_model state config tr e :
  acquire environ = Raise e → run environ state config tr = (Raise e, tr).
Proof.
  intros Hm. unfold translate_node, call, bind, lift, ret.
  cbv beta iota zeta. by rewrite Hm.
Qed.

(** With one it stops at [state.messages], before calling. *)
Lemma translate_node_with_model state config tr chat :
  acquire environ = Return chat →
  run environ state config tr = (Raise (AttributeError "messages"), tr).
Proof.
  intros Hm. unfold translate_node, call, bind, lift, ret.
  cbv beta iota zeta.
  by rewrite Hm, (getattr_key _ _ messages_not_attribute).
Qed.

(** C6.  With [MODEL] unset the default provider is taken: [get_model] is
    the construction of the OpenAI client for "gpt-4o", and returns that
    client whenever the construction succeeds.  With [MODEL] set to a
    value whose lower-case form is neither "openai" nor "anthropic",
    [get_model] raises [ValueError], and the node that asked for the model
    raises it without having called the service. *)
Theorem get_model_unsupported :
  (environ !! "MODEL" = None →
     acquire environ = ChatOpenAI environ 0 "gpt-4o"
     ∧ ∀ m, ChatOpenAI environ 0 "gpt-4o" = Return m →
         acquire environ = Return m)
  ∧ ∀ v, environ !! "MODEL" = Some v →
      lower v ≠ "openai" → lower v ≠ "anthropic" →
      let e := ValueError ("Invalid model specified: " +:+ lower v) in
      acquire environ = Raise e
      ∧ ∀ state config tr, run environ state config tr = (Raise e, tr).
Proof.
  split.
  - intros Hv.
    assert (acquire environ = ChatOpenAI environ 0 "gpt-4o") as Hm
      by (unfold get_model, getenv; by rewrite Hv).
    split; [done|]. intros m Hc. by rewrite Hm.
  - intros v Hv Ho Ha e.
    assert (acquire environ = Raise e) as Hm.
    { unfold get_model, getenv. rewrite Hv. simpl.
      destruct (decide (lower v = "openai")); [done|].
      by destruct (decide (lower v = "anthropic")). }
    split; [done|]. intros state config tr. by apply translate_node_no_model.
Qed.

End node.

(** *** The translator on the example conversations *)

Section examples.
Import Examples.Translation.

Abbreviation translate oracle :=
  (translate_node open_ai anthropic_ai repr same_config oracle).

Lemma get_model_unsupported_witness :
  get_model open_ai anthropic_ai with_key = Return (OpenAI 0 "gpt-4o")
  ∧ get_model open_ai anthropic_ai gemini
    = Raise (ValueError ("Invalid model specified: " +:+ lower "Gemini")).
Proof.
  split.
  - exact (proj2 (proj1 (get_model_unsupported open_ai anthropic_ai repr
                           same_config chatty with_key) eq_refl)
             (OpenAI 0 "gpt-4o") eq_refl).
  - refine (proj1 (proj2 (get_model_unsupported open_ai anthropic_ai repr
                            same_config chatty gemini)
                     "Gemini" eq_refl _ _));
      intros H; vm_compute in H; discriminate H.
Defined.

(** Without credentials the constructor's own error is what [get_model]
    raises. *)
Example get_model_without_key :
  get_model open_ai anthropic_ai bare
  = Raise (ServiceError "OpenAIError: api_key must be set").
Proof. reflexivity. Qed.


(** C4.  With a model that would answer with the three translations, the
    node raises before asking it: no state is returned and no translation
    is recorded. *)
Lemma tool_payload_not_recorded :
  translating {| invoked := bind_tools (OpenAI 0 "gpt-4o") ["Translations"]
                              None;
                 sent := []; sent_config := tt |} = Return tool_response
  ∧ translate translating with_key after_user tt []
    = (Raise (AttributeError "messages"), [])
  ∧ ∀ st', fst (translate translating with_key after_user tt [])
           ≠ Return st'.
Proof. split_and!; [reflexivity..|done]. Qed.

(** C5.  With a model that would answer in plain text, the node raises
    before asking it: no state is returned, so no history is extended. *)
Lemma text_response_not_appended :
  translate chatty with_key after_user tt []
  = (Raise (AttributeError "messages"), [])
  ∧ ∀ st', fst (translate chatty with_key after_user tt []) ≠ Return st'.
Proof. split; [reflexivity|done]. Qed.

(** C8.  On a history with a blank assistant message, with a model at
    hand, nothing is sent: the trace of calls stays empty. *)
Lemma history_not_sent :
  fst (translate chatty with_key after_assistant tt [])
  = Raise (AttributeError "messages")
  ∧ snd (translate chatty with_key after_assistant tt []) = [].
Proof. split; reflexivity. Qed.

End examples.

End AgentSpec.

(** ** The summarizer: failures, the log, and running it again *)

Module ExtractEdge.
Import Py Extract ExtractSpec.

(** The generator can only fail on a missing [status]. *)
Lemma next_pending_Raise ls h e :
  next_pending ls h = Raise e → e = KeyError "status".
Proof.
  induction ls as [|a ls IH]; simpl; [done|]. unfold subscript.
  destruct (h a !! "status") as [v|]; [|by intros [= <-]].
  by destruct (decide (v = VStr "pending")).
Qed.

Lemma next_pending_missing_status ls h pre l post :
  ls = pre ++ l :: post → Forall (settled h) pre → h l !! "status" = None →
  next_pending ls h = Raise (KeyError "status").
Proof.
  intros -> Hpre Hl. induction pre as [|a pre IH]; simpl; unfold subscript.
  - by rewrite Hl.
  - apply Forall_cons_1 in Hpre as [(v & -> & Hv) Hpre].
    destruct (decide (v = VStr "pending")); [done|]. by apply IH.
Qed.

Section node.
Context {chat_model RunnableConfig : Type}.
Variable get_model : result chat_model.
Variable ainvoke :
  chat_model -> list message -> RunnableConfig -> result message.
Variable json_dumps : step -> string.

Abbreviation run := (extract_node get_model ainvoke json_dumps).

(** The store once [cur] has been completed with a response. *)
Abbreviation completed h cur response upd :=
  (<[cur := dict_update (h cur) (completion (content response) upd)]> h).

(** The node from the point where the pending search step is found. *)
Lemma run_search_step state config h cur :
  first_pending h (steps state) cur →
  h cur !! "type" = Some (VStr "search") →
  run state config h
  = match get_model with
    | Raise e => (Raise e, h)
    | Return model =>
      match first_message (messages state) with
      | Raise e => (Raise e, h)
      | Return first =>
        match ainvoke model
                [first; HumanMessage (system_message json_dumps (h cur))]
                config with
        | Raise e => (Raise e, h)
        | Return response =>
          match list_add (dict_get (h cur) "updates" (VList [])) ["Done."]
          with
          | Raise e => (Raise e, h)
          | Return upd =>
            let h1 := completed h cur response upd in
            match next_pending (steps state) h1 with
            | Raise e => (Raise e, h1)
            | Return None => (Return state, h1)
            | Return (Some nxt) =>
                (Return state,
                 <[nxt := <["updates" := VList searching]> (h nxt)]> h1)
            end
          end
        end
      end
    end.
Proof.
  intros Hcur Hty. pose proof (first_pending_nonempty _ _ _ Hcur) as Hne.
  apply next_pending_Some in Hcur. apply dict_get_type in Hty.
  unfold extract_node, read, write, bind, gets, modify, lift, raise, ret.
  rewrite Hcur. cbv beta iota zeta.
  destruct (decide (h cur = ∅)); [done|].
  destruct (decide (dict_get (h cur) "type" VNone ≠ VStr "search")); [done|].
  destruct get_model as [model|]; [|done].
  destruct (first_message (messages state)) as [first|]; [|done].
  destruct (ainvoke model _ config) as [response|]; [|done].
  destruct (list_add _ _) as [upd|]; [|done].
  cbv zeta.
  destruct (next_pending (steps state) (<[cur:=_]> h)) as [[nxt|]|] eqn:Hn;
    [|done..].
  pose proof (lookup_update_status (h cur) (content response) upd) as Hd1.
  apply (next_pending_insert_Some _ _ _ Hd1) in Hn.
  destruct Hn as (_ & _ & _ & _ & Hnc & Hp).
  rewrite (fn_lookup_insert_ne _ cur nxt) by done.
  destruct (decide (h nxt = ∅)) as [He|]; [|done].
  unfold pending in Hp. rewrite He in Hp. by rewrite lookup_empty in Hp.
Qed.

(** X1.  A successful run appends "Done." to the completed step's log and
    keeps the entries the log had; a step without a log gets the one-entry
    log. *)
Theorem done_appended state config h st' h' cur :
  run state config h = (Return st', h') →
  first_pending h (steps state) cur →
  ∃ us, (h cur !! "updates" = None ∧ us = []
         ∨ h cur !! "updates" = Some (VList us))
    ∧ h' cur !! "updates" = Some (VList (us ++ ["Done."])).
Proof.
  intros Hrun Hcur.
  destruct (extract_node_Return _ _ _ _ _ _ _ _ Hrun)
    as (cur' & model & first & response & upd & Hcur' & _ & _ & _ & _ & Hu
        & _ & Hh').
  rewrite <- (first_pending_inj _ _ _ _ Hcur Hcur') in *. clear Hcur'.
  assert (∃ us, (h cur !! "updates" = None ∧ us = []
                 ∨ h cur !! "updates" = Some (VList us))
                ∧ upd = us ++ ["Done."]) as (us & Hus & ->).
  { unfold dict_get in Hu. destruct (h cur !! "updates") as [[| |us]|];
      simpl in Hu; try done; injection Hu as <-.
    - exists us. split; [by right|done].
    - exists []. split; [by left|done]. }
  exists us. split; [done|]. simpl in Hh'.
  destruct Hh' as [[_ ->]|(nxt & (_ & _ & _ & _ & Hne & _) & ->)].
  - rewrite fn_lookup_insert. apply lookup_update_updates.
  - rewrite fn_lookup_insert_ne by done. rewrite fn_lookup_insert.
    apply lookup_update_updates.
Qed.

(** X2.  The node returns, and returns the state it was given, whenever
    the first pending step is a search step whose log is absent or a list,
    every step of the list has a status, the history has a first message
    and the model answers. *)
Theorem extract_node_returns state config h cur model first rest response :
  first_pending h (steps state) cur →
  h cur !! "type" = Some (VStr "search") →
  (h cur !! "updates" = None ∨ ∃ us, h cur !! "updates" = Some (VList us)) →
  Forall (λ l, is_Some (h l !! "status")) (steps state) →
  get_model = Return model →
  messages state = first :: rest →
  ainvoke model [first; HumanMessage (system_message json_dumps (h cur))]
    config = Return response →
  ∃ h', run state config h = (Return state, h')
    ∧ h' cur !! "status" = Some (VStr "complete")
    ∧ h' cur !! "result" = Some (VStr (content response)).
Proof.
  intros Hcur Hty Hup Hst Hm Hms Hr.
  destruct (extract_node_succeeds get_model ainvoke json_dumps
              state config h cur model first rest response)
    as [h' Hrun]; try done.
  exists h'. split; [done|].
  rewrite (run_search_step _ _ _ _ Hcur Hty), Hm, Hms in Hrun.
  simpl first_message in Hrun. cbv beta iota in Hrun. rewrite Hr in Hrun.
  destruct (list_add _ _) as [upd|]; [|done]. cbv zeta in Hrun.
  destruct (next_pending (steps state) (<[cur:=_]> h)) as [[nxt|]|] eqn:Hn;
    [| |done]; injection Hrun as <-.
  - pose proof (lookup_update_status (h cur) (content response) upd) as Hd1.
    apply (next_pending_insert_Some _ _ _ Hd1) in Hn.
    destruct Hn as (_ & _ & _ & _ & Hnc & _).
    rewrite fn_lookup_insert_ne by done. rewrite fn_lookup_insert.
    split; [apply lookup_update_status|apply lookup_update_result].
  - rewrite fn_lookup_insert.
    split; [apply lookup_update_status|apply lookup_update_result].
Qed.

(** X3.  Whatever the node raises, the step dicts are as it found them,
    with one exception: a [KeyError] for a missing [status] met while
    looking for the next pending step, which comes after the current step
    has been completed and leaves it completed. *)
Theorem failure_store state config h e h' :
  run state config h = (Raise e, h') →
  (e ≠ KeyError "status" → h' = h)
  ∧ (h' = h
     ∨ ∃ cur response upd,
         first_pending h (steps state) cur
         ∧ e = KeyError "status"
         ∧ h' = completed h cur response upd).
Proof.
  intros Hrun.
  enough (h' = h
          ∨ ∃ cur response upd,
              first_pending h (steps state) cur
              ∧ e = KeyError "status"
              ∧ h' = completed h cur response upd) as H.
  { split; [|done]. intros He. by destruct H as [|(? & ? & ? & ? & ? & ?)]. }
  destruct (next_pending (steps state) h) as [[cur|]|e0] eqn:Hcur.
  - apply next_pending_Some in Hcur.
    destruct (decide (h cur !! "type" = Some (VStr "search"))) as [Hty|Hty].
    + rewrite (run_search_step _ _ _ _ Hcur Hty) in Hrun.
      destruct get_model as [model|]; [|left; congruence].
      destruct (first_message (messages state)) as [first|];
        [|left; congruence].
      destruct (ainvoke model _ config) as [response|]; [|left; congruence].
      destruct (list_add _ _) as [upd|]; [|left; congruence].
      cbv zeta in Hrun.
      destruct (next_pending (steps state) (<[cur:=_]> h)) as [[nxt|]|e1]
        eqn:Hn; [done..|].
      apply next_pending_Raise in Hn as ->. injection Hrun as <- <-.
      right. by exists cur, response, upd.
    + rewrite (extract_node_not_search _ _ _ _ _ _ _ Hcur Hty) in Hrun.
      left. congruence.
  - apply next_pending_None in Hcur.
    rewrite (extract_node_no_pending _ _ _ _ _ _ Hcur) in Hrun.
    left. congruence.
  - revert Hrun.
    unfold extract_node, read, write, bind, gets, modify, lift, raise, ret.
    rewrite Hcur. left. congruence.
Qed.

(** X4.  With a pending search step found and a model at hand, an empty
    history makes [state["messages"][0]] raise [IndexError]; no step has
    been written. *)
Theorem empty_history_IndexError state config h cur model :
  first_pending h (steps state) cur →
  h cur !! "type" = Some (VStr "search") →
  get_model = Return model →
  messages state = [] →
  run state config h = (Raise IndexError, h).
Proof.
  intros Hcur Hty Hm Hms.
  by rewrite (run_search_step _ _ _ _ Hcur Hty), Hm, Hms.
Qed.

(** X5.  What [get_model] or the model call raises is raised by the node
    as it is, and no step has been written. *)
Theorem model_failure_propagates state config h cur e :
  first_pending h (steps state) cur →
  h cur !! "type" = Some (VStr "search") →
  get_model = Raise e
  ∨ (∃ model first,
       get_model = Return model
       ∧ first_message (messages state) = Return first
       ∧ ainvoke model
           [first; HumanMessage (system_message json_dumps (h cur))] config
         = Raise e) →
  run state config h = (Raise e, h).
Proof.
  intros Hcur Hty [Hm|(model & first & Hm & Hf & Hr)];
    rewrite (run_search_step _ _ _ _ Hcur Hty), Hm; [done|].
  by rewrite Hf, Hr.
Qed.

(** X6.  When the pending step's [updates] is there but is not a list
    ([None], a string), the node raises [TypeError] after the model has
    answered, and no step has been written. *)
Theorem updates_not_a_list_TypeError
    state config h cur model first response v :
  first_pending h (steps state) cur →
  h cur !! "type" = Some (VStr "search") →
  get_model = Return model →
  first_message (messages state) = Return first →
  ainvoke model [first; HumanMessage (system_message json_dumps (h cur))]
    config = Return response →
  h cur !! "updates" = Some v →
  (∀ us, v ≠ VList us) →
  run state config h = (Raise TypeError, h).
Proof.
  intros Hcur Hty Hm Hf Hr Hv Hnl.
  rewrite (run_search_step _ _ _ _ Hcur Hty), Hm, Hf, Hr.
  unfold dict_get. rewrite Hv. simpl.
  destruct v as [| |us]; try done. by destruct (Hnl us).
Qed.

(** X7.  A step without a [status] that comes before any pending step
    makes the node raise [KeyError] for "status"; no step has been
    written. *)
Theorem missing_status_KeyError state config h pre l post :
  steps state = pre ++ l :: post →
  Forall (settled h) pre →
  h l !! "status" = None →
  run state config h = (Raise (KeyError "status"), h).
Proof.
  intros E Hpre Hl.
  pose proof (next_pending_missing_status _ h _ _ _ E Hpre Hl) as Hn.
  unfold extract_node, read, write, bind, gets, modify, lift, raise, ret.
  by rewrite Hn.
Qed.

(** X8.  A step without a [status] that comes after the current step and
    before any further pending step makes the node raise [KeyError] too,
    but only once the current step has been completed: the error leaves
    that step with status "complete" and the model's answer as result, and
    every other dict as it was. *)
Theorem missing_status_after_completion
    state config h cur model first response pre l post :
  first_pending h (steps state) cur →
  h cur !! "type" = Some (VStr "search") →
  (h cur !! "updates" = None ∨ ∃ us, h cur !! "updates" = Some (VList us)) →
  get_model = Return model →
  first_message (messages state) = Return first →
  ainvoke model [first; HumanMessage (system_message json_dumps (h cur))]
    config = Return response →
  steps state = pre ++ l :: post →
  Forall (λ x, x = cur ∨ settled h x) pre →
  h l !! "status" = None →
  ∃ h', run state config h = (Raise (KeyError "status"), h')
    ∧ h' cur !! "status" = Some (VStr "complete")
    ∧ h' cur !! "result" = Some (VStr (content response))
    ∧ ∀ l', l' ≠ cur → h' l' = h l'.
Proof.
  intros Hcur Hty Hup Hm Hf Hr E Hpre Hl.
  assert (l ≠ cur) as Hlc.
  { intros ->. destruct Hcur as (_ & _ & _ & _ & Hp). unfold pending in Hp.
    congruence. }
  rewrite (run_search_step _ _ _ _ Hcur Hty), Hm, Hf, Hr.
  assert (∃ upd, list_add (dict_get (h cur) "updates" (VList [])) ["Done."]
                 = Return upd) as [upd ->].
  { unfold dict_get. destruct Hup as [->|[us ->]]; simpl; eauto. }
  cbv zeta.
  pose proof (lookup_update_status (h cur) (content response) upd) as Hd1.
  rewrite (next_pending_missing_status _ _ pre l post E).
  - eexists. split; [done|]. rewrite fn_lookup_insert.
    split; [apply lookup_update_status|].
    split; [apply lookup_update_result|].
    intros l' Hl'. by rewrite fn_lookup_insert_ne.
  - revert Hpre. apply List.Forall_impl. intros x Hx.
    by apply settled_insert.
  - by rewrite fn_lookup_insert_ne.
Qed.

(** X9.  After a successful run the step that was announced ("Searching
    the web...") is the first pending step of the new store: the next
    invocation takes up exactly that step. *)
Theorem next_run_takes_next_step state config h st' h' cur nxt :
  run state config h = (Return st', h') →
  first_pending h (steps state) cur →
  further_pending h (steps state) cur nxt →
  first_pending h' (steps st') nxt.
Proof.
  intros Hrun Hcur Hnxt.
  destruct (extract_node_Return _ _ _ _ _ _ _ _ Hrun)
    as (cur' & model & first & response & upd & Hcur' & _ & _ & _ & _ & _
        & -> & Hh').
  rewrite <- (first_pending_inj _ _ _ _ Hcur Hcur') in *. clear Hcur'.
  simpl in Hh'. destruct Hh' as [[Hall _]|(nxt' & Hnxt' & ->)].
  { by destruct (further_pending_not_all _ _ _ _ Hnxt). }
  rewrite <- (further_pending_inj _ _ _ _ _ Hnxt Hnxt'). clear Hnxt'.
  pose proof (lookup_update_status (h cur) (content response) upd) as Hd1.
  destruct Hnxt as (pre & post & E & Hpre & Hne & Hp).
  exists pre, post. split; [done|]. split.
  - revert Hpre. apply List.Forall_impl. intros x Hx.
    assert (x ≠ nxt) as Hxn.
    { intros ->. destruct Hx as [->|(v & Hv & Hvp)]; [done|].
      unfold pending in Hp. congruence. }
    unfold settled. rewrite fn_lookup_insert_ne by done.
    by apply settled_insert.
  - unfold pending. rewrite fn_lookup_insert.
    by rewrite lookup_insert_ne.
Qed.

(** X10.  When the completed step was the last pending one, invoking the
    node again on what it returned raises [ValueError] ("No pending search
    step found") and writes nothing. *)
Theorem next_run_finds_nothing state config h st' h' cur :
  run state config h = (Return st', h') →
  first_pending h (steps state) cur →
  Forall (λ l, l = cur ∨ settled h l) (steps state) →
  run st' config h'
  = (Raise (ValueError "No pending search step found"), h').
Proof.
  intros Hrun Hcur Hall.
  destruct (extract_node_Return _ _ _ _ _ _ _ _ Hrun)
    as (cur' & model & first & response & upd & Hcur' & _ & _ & _ & _ & _
        & -> & Hh').
  rewrite <- (first_pending_inj _ _ _ _ Hcur Hcur') in *. clear Hcur'.
  simpl in Hh'. destruct Hh' as [[_ ->]|(nxt & Hnxt & _)].
  - apply extract_node_no_pending. revert Hall. apply List.Forall_impl.
    intros x Hx. apply settled_insert; [|done]. apply lookup_update_status.
  - by destruct (further_pending_not_all _ _ _ _ Hnxt).
Qed.

(** X11.  Of the history the node reads the first message only: two states
    with the same steps and the same first message fail alike or return
    alike, each its own state, and leave the same store. *)
Theorem only_first_message_read s1 s2 m r1 r2 config h :
  steps s1 = steps s2 →
  messages s1 = m :: r1 →
  messages s2 = m :: r2 →
  let node := extract_node get_model ainvoke json_dumps in
  snd (node s1 config h) = snd (node s2 config h)
  ∧ (∀ e, fst (node s1 config h) = Raise e ↔ fst (node s2 config h) = Raise e)
  ∧ (fst (node s1 config h) = Return s1 ↔ fst (node s2 config h) = Return s2).
Proof.
  intros Hs H1 H2 node. unfold node.
  unfold extract_node, read, write, bind, gets, modify, lift, raise, ret.
  rewrite <- Hs, H1, H2.
  destruct (next_pending (steps s1) h) as [[cur|]|]; [|done..].
  cbv beta iota zeta.
  destruct (decide (h cur = ∅)); [done|].
  destruct (decide (dict_get (h cur) "type" VNone ≠ VStr "search")); [done|].
  destruct get_model as [model|]; [|done]. cbn [first_message].
  destruct (ainvoke model _ config) as [response|]; [|done].
  destruct (list_add _ _) as [upd|]; [|done].
  destruct (next_pending (steps s1) (<[cur:=_]> h)) as [[nxt|]|]; [|done..].
  by destruct (decide (<[cur:=_]> h nxt = ∅)).
Qed.

End node.

(** *** On the example stores *)

Section examples.
Import Examples.Research Cases.Research.

Abbreviation summarize := (extract_node (Return tt) summarizing no_json).

Lemma summarize_logged :
  summarize two_steps tt logged
  = (Return two_steps, snd (summarize two_steps tt logged)).
Proof. vm_compute. reflexivity. Qed.

Lemma logged_first : first_pending logged [0; 1] 0.
Proof. exists [], [1]. split_and!; [reflexivity|constructor|reflexivity]. Qed.

Lemma search_next_only : first_pending search_next [0] 0.
Proof. exists [], []. split_and!; [reflexivity|constructor|reflexivity]. Qed.

Lemma done_appended_witness :
  ∃ us, (logged 0 !! "updates" = None ∧ us = []
         ∨ logged 0 !! "updates" = Some (VList us))
    ∧ snd (summarize two_steps tt logged) 0 !! "updates"
      = Some (VList (us ++ ["Done."])).
Proof.
  exact (done_appended (Return tt) summarizing no_json two_steps tt logged
           two_steps _ 0 summarize_logged logged_first).
Defined.

Lemma extract_node_returns_witness :
  ∃ h', summarize two_steps tt search_next = (Return two_steps, h')
    ∧ h' 0 !! "status" = Some (VStr "complete")
    ∧ h' 0 !! "result" = Some (VStr "Rocq is a proof assistant [1].").
Proof.
  apply (extract_node_returns (Return tt) summarizing no_json two_steps tt
           search_next 0 tt (HumanMessage "What is Rocq?") []
           (AIMessage "Rocq is a proof assistant [1]." [])).
  - exact search_next_first.
  - reflexivity.
  - by left.
  - repeat constructor; by eexists.
  - reflexivity.
  - reflexivity.
  - reflexivity.
Defined.

Lemma gap_after_first : first_pending gap_after [0; 1] 0.
Proof. exists [], [1]. split_and!; [reflexivity|constructor|reflexivity]. Qed.

Lemma summarize_null_log :
  summarize one_step tt null_log
  = (Raise TypeError, snd (summarize one_step tt null_log)).
Proof. vm_compute. reflexivity. Qed.

Lemma failure_store_witness :
  (TypeError ≠ KeyError "status" →
     snd (summarize one_step tt null_log) = null_log)
  ∧ (snd (summarize one_step tt null_log) = null_log
     ∨ ∃ cur response upd,
         first_pending null_log (steps one_step) cur
         ∧ TypeError = KeyError "status"
         ∧ snd (summarize one_step tt null_log)
           = <[cur := dict_update (null_log cur)
                        (completion (content response) upd)]> null_log).
Proof.
  exact (failure_store (Return tt) summarizing no_json one_step tt null_log
           _ _ summarize_null_log).
Defined.

Lemma empty_history_IndexError_witness :
  summarize no_history tt search_next = (Raise IndexError, search_next).
Proof.
  apply (empty_history_IndexError (Return tt) summarizing no_json
           no_history tt search_next 0 tt).
  - exact search_next_only.
  - reflexivity.
  - reflexivity.
  - reflexivity.
Defined.

Lemma model_failure_propagates_witness :
  extract_node (Return tt) unavailable no_json two_steps tt search_next
  = (Raise (ServiceError "timeout"), search_next).
Proof.
  apply (model_failure_propagates (Return tt) unavailable no_json
           two_steps tt search_next 0).
  - exact search_next_first.
  - reflexivity.
  - right. by exists tt, (HumanMessage "What is Rocq?").
Defined.

Lemma updates_not_a_list_TypeError_witness :
  summarize one_step tt null_log = (Raise TypeError, null_log).
Proof.
  apply (updates_not_a_list_TypeError (Return tt) summarizing no_json
           one_step tt null_log 0 tt (HumanMessage "What is Rocq?")
           (AIMessage "Rocq is a proof assistant [1]." []) VNone).
  - exists [], []. split_and!; [reflexivity|constructor|reflexivity].
  - reflexivity.
  - reflexivity.
  - reflexivity.
  - reflexivity.
  - reflexivity.
  - discriminate.
Defined.

Lemma missing_status_KeyError_witness :
  summarize plan tt gap_before = (Raise (KeyError "status"), gap_before).
Proof.
  apply (missing_status_KeyError (Return tt) summarizing no_json
           plan tt gap_before [0] 1 [2]).
  - reflexivity.
  - repeat constructor. exists (VStr "complete"). split; [reflexivity|done].
  - reflexivity.
Defined.

Lemma missing_status_after_completion_witness :
  ∃ h', summarize two_steps tt gap_after = (Raise (KeyError "status"), h')
    ∧ h' 0 !! "status" = Some (VStr "complete")
    ∧ h' 0 !! "result" = Some (VStr "Rocq is a proof assistant [1].")
    ∧ ∀ l', l' ≠ 0 → h' l' = gap_after l'.
Proof.
  apply (missing_status_after_completion (Return tt) summarizing no_json
           two_steps tt gap_after 0 tt (HumanMessage "What is Rocq?")
           (AIMessage "Rocq is a proof assistant [1]." []) [0] 1 []).
  - exact gap_after_first.
  - reflexivity.
  - by left.
  - reflexivity.
  - reflexivity.
  - reflexivity.
  - reflexivity.
  - constructor; [by left|constructor].
  - reflexivity.
Defined.

Lemma next_run_takes_next_step_witness :
  first_pending (snd (summarize two_steps tt search_next))
    (steps two_steps) 1.
Proof.
  apply (next_run_takes_next_step (Return tt) summarizing no_json
           two_steps tt search_next two_steps _ 0 1).
  - exact summarize_two_steps.
  - exact search_next_first.
  - exists [0], []. split; [reflexivity|].
    split; [|split; [done|reflexivity]]. constructor; [by left|constructor].
Defined.

Lemma summarize_one_step :
  summarize one_step tt search_next
  = (Return one_step, snd (summarize one_step tt search_next)).
Proof. vm_compute. reflexivity. Qed.

Lemma next_run_finds_nothing_witness :
  summarize one_step tt (snd (summarize one_step tt search_next))
  = (Raise (ValueError "No pending search step found"),
     snd (summarize one_step tt search_next)).
Proof.
  apply (next_run_finds_nothing (Return tt) summarizing no_json
           one_step tt search_next one_step _ 0).
  - exact summarize_one_step.
  - exact search_next_only.
  - constructor; [by left|constructor].
Defined.

Lemma only_first_message_read_witness :
  snd (summarize two_steps tt search_next)
  = snd (summarize long_history tt search_next)
  ∧ (∀ e, fst (summarize two_steps tt search_next) = Raise e
          ↔ fst (summarize long_history tt search_next) = Raise e)
  ∧ (fst (summarize two_steps tt search_next) = Return two_steps
     ↔ fst (summarize long_history tt search_next) = Return long_history).
Proof.
  apply (only_first_message_read (Return tt) summarizing no_json
           two_steps long_history (HumanMessage "What is Rocq?") []
           [AIMessage "Let me search." []] tt search_next);
    reflexivity.
Defined.

End examples.
End ExtractEdge.

(** ** The translator: provider names, and the call that is never made *)

Module AgentEdge.
Import Py Agent AgentSpec.

Section node.
Context {chat_model RunnableConfig : Type}.
Variable ChatOpenAI :
  gmap string string -> nat -> string -> result chat_model.
Variable ChatAnthropic :
  gmap string string -> nat -> string -> option nat ->
  option (list string) -> result chat_model.
Variable format : value -> string.
Variable copilotkit_customize_config :
  RunnableConfig -> bool -> list (gmap string string) -> RunnableConfig.
Variable ainvoke : invocation chat_model RunnableConfig -> result message.
Variable environ : gmap string string.

Abbreviation acquire := (get_model ChatOpenAI ChatAnthropic).
Abbreviation run :=
  (translate_node ChatOpenAI ChatAnthropic format
     copilotkit_customize_config ainvoke).

(** X12.  [MODEL] is matched whatever its letter case: for a value that
    lower-cases to "openai", [get_model] is the construction of the OpenAI
    client for "gpt-4o"; for one that lower-cases to "anthropic", the
    construction of the Anthropic client with the arguments of the source;
    and it returns a client for no other value. *)
Theorem get_model_any_case v :
  environ !! "MODEL" = Some v →
  (lower v = "openai" → acquire environ = ChatOpenAI environ 0 "gpt-4o")
  ∧ (lower v = "anthropic" →
       acquire environ
       = ChatAnthropic environ 0 "claude-3-5-sonnet-20240620" None None)
  ∧ ((∃ m, acquire environ = Return m) →
       lower v = "openai" ∨ lower v = "anthropic").
Proof.
  intros Hv. unfold get_model, getenv. rewrite Hv. simpl. split_and!.
  - intros ->. done.
  - intros ->. done.
  - intros [m Hm]. destruct (decide (lower v = "openai")); [by left|].
    destruct (decide (lower v = "anthropic")); [by right|done].
Qed.

(** X13.  On the dict the graph passes, the node never returns a state and
    never calls the model service: it raises what [get_model] raised or,
    with a model at hand, [AttributeError] for [messages], and the trace
    of calls is as it was. *)
Theorem translate_node_never_calls state config tr :
  ∃ e, translate_node ChatOpenAI ChatAnthropic format
         copilotkit_customize_config ainvoke environ state config tr
       = (Raise e, tr)
    ∧ (acquire environ = Raise e
       ∨ (∃ chat, acquire environ = Return chat)
         ∧ e = AttributeError "messages").
Proof.
  destruct (acquire environ) as [chat|e] eqn:Hm.
  - exists (AttributeError "messages"). split.
    + by eapply translate_node_with_model.
    + right. split; [by exists chat|done].
  - exists e. split; [by apply translate_node_no_model|by left].
Qed.

End node.

Section examples.
Import Examples.Translation.

Lemma get_model_any_case_witness :
  get_model open_ai anthropic_ai claude
  = Return (Anthropic 0 "claude-3-5-sonnet-20240620" None None).
Proof.
  exact (proj1 (proj2 (get_model_any_case open_ai anthropic_ai claude
                         "Anthropic" eq_refl)) eq_refl).
Defined.

End examples.

End AgentEdge.
